(** * The capability-gated animated scene of the landing page

    A shallow embedding of [portfolio/src/app/page.tsx]: the WebGL feature
    probe [useHasWebGL], the conditional render of [Hero3D], the style sheet
    of [ScrollIndicator], and the per-frame callbacks of [Planet] and
    [MoonOrbit] together with the objects they act on.

    JavaScript code that can throw is embedded in the [outcome] monad of
    module [Js]; React state is threaded explicitly; the three.js objects
    live in a store addressed by the refs of the components. Numbers are
    an interface with two instances: IEEE 754 binary64, which is what the
    code computes with, and the rationals, for statements about the
    arithmetic without rounding. *)

From Stdlib Require Import Bool List String ZArith NArith QArith.
From Stdlib Require Import Floats.PrimFloat Floats.SpecFloat Floats.FloatOps.
Import ListNotations.
Close Scope Q_scope.

Set Implicit Arguments.
Set Warnings "-inexact-float,-register-all".

(* ================================================================== *)
(** * Exceptions of the host language *)

Module Js.

(** The exceptions that the modelled calls can raise. *)
Inductive exn : Type :=
| TypeError
| ReferenceError
| InvalidStateError
| HostError (message : string).

(** Result of evaluating an expression or running a statement. *)
Inductive outcome (A : Type) : Type :=
| Returns (a : A)
| Throws (e : exn).

Arguments Returns {A} a.
Arguments Throws {A} e.

Definition bind {A B : Type} (m : outcome A) (k : A -> outcome B) : outcome B :=
  match m with
  | Returns a => k a
  | Throws e => Throws e
  end.

(** [try { body } catch { handler }] *)
Definition try_catch {A : Type} (body : outcome A) (handler : exn -> outcome A)
  : outcome A :=
  match body with
  | Returns a => Returns a
  | Throws e => handler e
  end.

(** Truthiness of a value that is either an object or [null]/[undefined]. *)
Definition truthy {A : Type} (v : option A) : bool :=
  match v with
  | Some _ => true
  | None => false
  end.

(** [a && b]: [b] is evaluated only when [a] is truthy. *)
Definition and_then {A B : Type} (a : outcome (option A)) (b : outcome (option B))
  : outcome (option B) :=
  bind a (fun v => if truthy v then b else Returns None).

(** [a || b]: [b] is evaluated only when [a] is falsy. *)
Definition or_else {A : Type} (a b : outcome (option A)) : outcome (option A) :=
  bind a (fun v => if truthy v then Returns v else b).

Definition throws {A : Type} (m : outcome A) : Prop :=
  exists e, m = Throws e.

End Js.

Import Js.

Declare Scope js_scope.
Delimit Scope js_scope with js.
Notation "x <- m ;; k" := (bind m (fun x => k))
  (at level 61, m at next level, right associativity) : js_scope.
Notation "a &&& b" := (and_then a b) (at level 40, left associativity) : js_scope.
Notation "a ||| b" := (or_else a b) (at level 50, left associativity) : js_scope.
Open Scope js_scope.
Open Scope string_scope.

(* ================================================================== *)
(** * The capability probe: [useHasWebGL] *)

Module Probe.

(** A rendering context handed out by [canvas.getContext]. *)
Inductive rendering_context : Type :=
| WebGLContext (handle : nat).

(** The constructor object [window.WebGLRenderingContext]. *)
Inductive constructor : Type :=
| WebGLRenderingContextCtor.

(** An off-screen canvas: [getContext] returns a context or [null], or
    throws. *)
Record canvas : Type := {
  getContext : string -> outcome (option rendering_context)
}.

(** What the probe can observe of the browser. *)
Record environment : Type := {
  (** [document.createElement(tag)]; throws when [document] is missing *)
  document_createElement : string -> outcome canvas;
  (** [typeof window !== "undefined"] *)
  window_defined : bool;
  (** [window.WebGLRenderingContext]; [None] is [undefined] *)
  window_WebGLRenderingContext : option constructor
}.

(** The state cell of [React.useState] in [useHasWebGL], and the
    dependency array recorded by the last committed [React.useEffect]
    ([None] until the first commit). *)
Record fiber : Type := {
  has : option bool;
  effect_deps : option (list nat)
}.

Definition unmounted : fiber := {| has := None; effect_deps := None |}.

(** [React.useState(init)]: the initial value is used on the first render
    only. *)
Definition useState (init : bool) (f : fiber) : bool * fiber :=
  match has f with
  | Some v => (v, f)
  | None => (init, {| has := Some init; effect_deps := effect_deps f |})
  end.

Definition setHas (v : bool) (f : fiber) : outcome fiber :=
  Returns {| has := Some v; effect_deps := effect_deps f |}.

(** The body of the [try] block, up to the value of [ok]. *)
Definition probe_ok (env : environment) : outcome bool :=
  canvas <- document_createElement env "canvas" ;;
  if window_defined env then
    v <- Returns (window_WebGLRenderingContext env)
           &&& (getContext canvas "webgl" ||| getContext canvas "experimental-webgl") ;;
    Returns (truthy v)
  else Returns false.

(** The effect callback of [useHasWebGL]. *)
Definition probe_effect (env : environment) (f : fiber) : outcome fiber :=
  try_catch
    (ok <- probe_ok env ;; setHas ok f)
    (fun _ => setHas false f).

(** [React.useEffect(effect, deps)]: the effect is run after the commit of
    the first render, and after a later one only when [deps] differs from
    the array recorded at the previous commit. *)
Definition deps_changed (recorded : option (list nat)) (deps : list nat) : bool :=
  match recorded with
  | None => true
  | Some old => if list_eq_dec Nat.eq_dec old deps then false else true
  end.

(** The render part of [useHasWebGL]: the current value of [has]. *)
Definition useHasWebGL (f : fiber) : bool * fiber :=
  useState true f.

(** The commit part of [useHasWebGL]: [React.useEffect(..., [])]. The
    boolean tells whether the probe was run in this commit. *)
Definition useHasWebGL_commit (env : environment) (f : fiber)
  : outcome (fiber * bool) :=
  if deps_changed (effect_deps f) [] then
    f' <- probe_effect env f ;;
    Returns ({| has := has f'; effect_deps := Some [] |}, true)
  else Returns (f, false).

(** The value of [has] once the effect has run, as the next render reads
    it. *)
Definition probe_result (env : environment) : bool :=
  match probe_effect env (snd (useState true unmounted)) with
  | Returns f => fst (useState true f)
  | Throws _ => true
  end.

(** Vocabulary of the specification. *)
Definition exposes_constructor (env : environment) : Prop :=
  window_defined env = true /\ window_WebGLRenderingContext env <> None.

Definition creates (c : canvas) (alias : string) : Prop :=
  exists ctx, getContext c alias = Returns (Some ctx).

Definition returns_null (c : canvas) (alias : string) : Prop :=
  getContext c alias = Returns None.

(** The condition under which the specification expects [true]: the
    constructor is exposed and either alias hands out a context. *)
Definition spec_supported (env : environment) : Prop :=
  exposes_constructor env /\
  exists c, document_createElement env "canvas" = Returns c /\
            (creates c "webgl" \/ creates c "experimental-webgl").

(** The same with the aliases tried in the order of the source: the
    legacy alias is asked only after the primary one returned [null]. *)
Definition supported_in_order (env : environment) : Prop :=
  exposes_constructor env /\
  exists c, document_createElement env "canvas" = Returns c /\
            (creates c "webgl" \/
             (returns_null c "webgl" /\ creates c "experimental-webgl")).

(** No call of [getContext] on the canvas throws. *)
Definition getContext_total (env : environment) : Prop :=
  forall c alias e,
    document_createElement env "canvas" = Returns c ->
    getContext c alias <> Throws e.

(** Sample environments. *)
Definition canvas_of (webgl experimental : outcome (option rendering_context))
  : canvas :=
  {| getContext := fun alias =>
       if String.eqb alias "webgl" then webgl
       else if String.eqb alias "experimental-webgl" then experimental
       else Returns None |}.

Definition browser (c : canvas) (ctor : option constructor) : environment :=
  {| document_createElement := fun _ => Returns c;
     window_defined := true;
     window_WebGLRenderingContext := ctor |}.

Definition modern_browser : environment :=
  browser (canvas_of (Returns (Some (WebGLContext 1))) (Returns (Some (WebGLContext 1))))
          (Some WebGLRenderingContextCtor).

Definition legacy_browser : environment :=
  browser (canvas_of (Returns None) (Returns (Some (WebGLContext 2))))
          (Some WebGLRenderingContextCtor).

Definition no_gpu_browser : environment :=
  browser (canvas_of (Returns None) (Returns None)) (Some WebGLRenderingContextCtor).

Definition no_constructor_browser : environment :=
  browser (canvas_of (Throws TypeError) (Throws TypeError)) None.

(** The primary alias throws, the legacy alias would hand out a context. *)
Definition primary_throws_browser : environment :=
  browser (canvas_of (Throws InvalidStateError) (Returns (Some (WebGLContext 2))))
          (Some WebGLRenderingContextCtor).

Definition no_document : environment :=
  {| document_createElement := fun _ => Throws ReferenceError;
     window_defined := false;
     window_WebGLRenderingContext := None |}.

End Probe.

(* ================================================================== *)
(** * The hero section: [Hero3D] *)

Module Hero.
Import Probe.

(** The elements of the tree that [Hero3D] returns. *)
Inductive tag : Type :=
| section_home      (* <section id="home"> *)
| radial_glow       (* <div>, the radial glow *)
| Canvas
| Lights
| Planet
| OrbitRing
| MoonOrbit
| fallback_frame    (* <div className="absolute inset-0 grid place-items-center"> *)
| FallbackNoWebGL
| motion_div        (* <motion.div>, the empty overlay title *)
| ScrollIndicator.

Inductive element : Type :=
| Element (t : tag) (children : list element).

Definition tag_eq_dec (a b : tag) : {a = b} + {a <> b}.
Proof. decide equality. Defined.

(** How many elements of the tree carry the tag [t]. *)
Fixpoint count (t : tag) (e : element) : nat :=
  match e with
  | Element t' children =>
      (if tag_eq_dec t t' then 1 else 0) + list_sum (map (count t) children)
  end.

(** The JSX returned by [Hero3D], given the value read from [useHasWebGL]. *)
Definition Hero3D_view (hasWebGL : bool) : element :=
  Element section_home
    [ Element radial_glow [];
      (if hasWebGL then
         Element Canvas
           [ Element Lights []; Element Planet [];
             Element OrbitRing []; Element MoonOrbit [] ]
       else
         Element fallback_frame [ Element FallbackNoWebGL [] ]);
      Element motion_div [];
      Element ScrollIndicator [] ].

(** One render pass of [Hero3D] followed by its commit. *)
Record pass : Type := {
  view : element;      (* what the pass rendered *)
  probed : bool;       (* whether the commit ran the probe *)
  next : fiber         (* the hook state left for the next pass *)
}.

Definition Hero3D (env : environment) (f : fiber) : outcome pass :=
  let (hasWebGL, f1) := useHasWebGL f in
  r <- useHasWebGL_commit env f1 ;;
  Returns {| view := Hero3D_view hasWebGL; probed := snd r; next := fst r |}.

(** Successive passes of one mounted [Hero3D]; [envs] gives the browser as
  it is at each pass. *)
Fixpoint Hero3D_passes (envs : list environment) (f : fiber)
  : outcome (list pass) :=
  match envs with
  | [] => Returns []
  | env :: rest =>
      p <- Hero3D env f ;;
      ps <- Hero3D_passes rest (next p) ;;
      Returns (p :: ps)
  end.

Definition probes (ps : list pass) : nat :=
  List.length (filter probed ps).

(** The two variants of the hero. *)
Definition shows_scene (e : element) : Prop :=
  count Canvas e = 1 /\ count FallbackNoWebGL e = 0.

Definition shows_fallback (e : element) : Prop :=
  count Canvas e = 0 /\ count FallbackNoWebGL e = 1.

(** The hook state from the second pass on: [has] holds [b] and the empty
    dependency array is recorded. *)
Definition settled (b : bool) : fiber :=
  {| has := Some b; effect_deps := Some [] |}.

Definition settled_pass (b : bool) : pass :=
  {| view := Hero3D_view b; probed := false; next := settled b |}.

End Hero.

(* ================================================================== *)
(** * The style sheet of [ScrollIndicator] *)

Module Style.

Inductive timing_function : Type :=
| ease | linear | ease_in | ease_out | ease_in_out.

Inductive iteration_count : Type :=
| infinite
| times (n : N).

(** A value of the [animation] shorthand; the duration is in
  milliseconds. *)
Inductive animation : Type :=
| animation_none
| animate (name : string) (duration_ms : N)
          (timing : timing_function) (iterations : iteration_count).

Inductive media_query : Type :=
| prefers_reduced_motion_reduce.

Inductive selector : Type :=
| by_id (id : string).

Record rule : Type := {
  media : option media_query;
  target : selector;
  animation_value : animation
}.

(** One step of [@keyframes wheel]. *)
Record keyframe : Type := {
  at_percent : N;
  translateY_px : N;
  opacity : N
}.

Definition keyframes_wheel : list keyframe :=
  [ {| at_percent := 0; translateY_px := 0; opacity := 1 |};
    {| at_percent := 70; translateY_px := 8; opacity := 0 |};
    {| at_percent := 100; translateY_px := 8; opacity := 0 |} ].

(** The rules of the [<style jsx>] block, in source order. *)
Definition ScrollIndicator_rules : list rule :=
  [ {| media := None;
       target := by_id "wheel";
       animation_value := animate "wheel" 1800 ease_in_out infinite |};
    {| media := Some prefers_reduced_motion_reduce;
       target := by_id "wheel";
       animation_value := animation_none |} ].

(** The elements of the [<svg>] of [ScrollIndicator]. *)
Record node : Type := {
  node_name : string;
  node_id : option string
}.

Definition svg_rect : node := {| node_name := "rect"; node_id := None |}.
Definition svg_wheel : node := {| node_name := "circle"; node_id := Some "wheel" |}.

(** The user's settings that the media query reads. *)
Record preferences : Type := {
  reduced_motion : bool
}.

Definition media_holds (p : preferences) (m : option media_query) : bool :=
  match m with
  | None => true
  | Some prefers_reduced_motion_reduce => reduced_motion p
  end.

Definition selects (s : selector) (n : node) : bool :=
  match s, node_id n with
  | by_id i, Some j => String.eqb i j
  | by_id _, None => false
  end.

Definition applies (p : preferences) (n : node) (r : rule) : bool :=
  media_holds p (media r) && selects (target r) n.

(** The cascade: every selector of the sheet is a single id selector, so
  all rules have the same specificity and the last one that applies
  wins; without any, [animation] has its initial value [none]. *)
Definition computed_animation (p : preferences) (sheet : list rule) (n : node)
  : animation :=
  fold_left (fun current r => if applies p n r then animation_value r else current)
            sheet animation_none.

End Style.
(* ================================================================== *)
(** * Numbers *)

Module Number.

(** The arithmetic that the scene needs of its numbers: the decimal
    literals of the source, [+], [*], [/] and [Math.PI]. *)
Class Arith (num : Type) : Type := {
  num_lit : Q -> num;
  num_add : num -> num -> num;
  num_mul : num -> num -> num;
  num_div : num -> num -> num;
  num_PI : num
}.

(** ** IEEE 754 binary64, the numbers of the host language *)

Definition binary64_of_Z (n : Z) : float :=
  SF2Prim (binary_normalize prec emax n 0 false).

(** A decimal literal is read as the double nearest to it; for the short
    literals of the source that is the correctly rounded quotient of its
    digits by the power of ten. *)
Definition binary64_lit (q : Q) : float :=
  PrimFloat.div (binary64_of_Z (Qnum q)) (binary64_of_Z (Zpos (Qden q))).

#[export] Instance binary64 : Arith float := {
  num_lit := binary64_lit;
  num_add := PrimFloat.add;
  num_mul := PrimFloat.mul;
  num_div := PrimFloat.div;
  num_PI := 0x1.921fb54442d18p+1%float
}.

(** ** Exact rational arithmetic, without rounding *)

(** [num_PI] is here the rational value of the double [Math.PI]. *)
#[export] Instance exact : Arith Q := {
  num_lit := fun q => q;
  num_add := Qplus;
  num_mul := Qmult;
  num_div := Qdiv;
  num_PI := (884279719003555 # 281474976710656)%Q
}.

End Number.

(* ================================================================== *)
(** * The 3D scene: objects, refs and per-frame callbacks *)

Module Scene.
Import Number.

(** The three.js objects that the components create. *)
Inductive object_id : Type :=
| planet_mesh     (* <mesh> of Planet *)
| ring_mesh       (* <mesh> of OrbitRing *)
| moon_group      (* <group> of MoonOrbit *)
| moon_mesh.      (* <mesh> inside the group of MoonOrbit *)

Definition object_id_eq_dec (a b : object_id) : {a = b} + {a <> b}.
Proof. decide equality. Defined.

(** The scene graph below the canvas. *)
Definition parent (i : object_id) : option object_id :=
  match i with
  | moon_mesh => Some moon_group
  | _ => None
  end.

Inductive light_kind : Type :=
| ambientLight
| directionalLight
| pointLight.

Definition light_kind_eq_dec (a b : light_kind) : {a = b} + {a <> b}.
Proof. decide equality. Defined.

Section Objects.
Context {num : Type} {arith : Arith num}.

Local Notation "a + b" := (num_add a b).
Local Notation "a * b" := (num_mul a b).
Local Notation "a / b" := (num_div a b).
Local Notation "$ q" := (num_lit q%Q) (at level 9, q at level 9).

(** A [Vector3] or the angles of an [Euler]. *)
Record triple : Type := {
  x : num;
  y : num;
  z : num
}.

Inductive geometry : Type :=
| no_geometry
| sphereGeometry (radius : num) (widthSegments heightSegments : N)
| torusGeometry (radius tube : num) (radialSegments tubularSegments : N).

Record Object3D : Type := {
  position : triple;
  rotation : triple;
  castShadow : bool;
  receiveShadow : bool;
  shape : geometry
}.

(** The store of the objects. *)
Record graph : Type := {
  planet : Object3D;
  ring : Object3D;
  orbit : Object3D;
  moon : Object3D
}.

Definition lookup (i : object_id) (g : graph) : Object3D :=
  match i with
  | planet_mesh => planet g
  | ring_mesh => ring g
  | moon_group => orbit g
  | moon_mesh => moon g
  end.

Definition update (i : object_id) (f : Object3D -> Object3D) (g : graph) : graph :=
  match i with
  | planet_mesh =>
      {| planet := f (planet g); ring := ring g; orbit := orbit g; moon := moon g |}
  | ring_mesh =>
      {| planet := planet g; ring := f (ring g); orbit := orbit g; moon := moon g |}
  | moon_group =>
      {| planet := planet g; ring := ring g; orbit := f (orbit g); moon := moon g |}
  | moon_mesh =>
      {| planet := planet g; ring := ring g; orbit := orbit g; moon := f (moon g) |}
  end.

(** The objects together with the [current] fields of the two refs,
    [planetRef] of Planet and [group] of MoonOrbit. *)
Record world : Type := {
  objects : graph;
  planetRef : option object_id;
  group : option object_id
}.

(** ** Constants of the source *)

Definition ORBIT_RADIUS : num := $(21 # 10).

Definition ORBIT_TILT : triple :=
  {| x := num_PI / $(28 # 10); y := $(2 # 10); z := $0 |}.

Definition origin : triple := {| x := $0; y := $0; z := $0 |}.

(** ** The objects as the JSX creates them

    Props that are not given keep the defaults of three.js: position and
    rotation at the origin, no shadows. Materials are left out: no
    callback touches them. *)

Definition Planet_mesh : Object3D :=
  {| position := {| x := $0; y := $0; z := $0 |};
     rotation := origin;
     castShadow := true;
     receiveShadow := true;
     shape := sphereGeometry $(12 # 10) 96 96 |}.

Definition OrbitRing_mesh : Object3D :=
  {| position := origin;
     rotation := {| x := num_PI / $(28 # 10); y := $(2 # 10); z := $0 |};
     castShadow := false;
     receiveShadow := false;
     shape := torusGeometry $(21 # 10) $(1 # 100) 16 256 |}.

Definition MoonOrbit_group : Object3D :=
  {| position := origin;
     rotation := {| x := $(25 # 100); y := $(2 # 10); z := $0 |};
     castShadow := false;
     receiveShadow := false;
     shape := no_geometry |}.

Definition MoonOrbit_mesh : Object3D :=
  {| position := {| x := $(21 # 10); y := $0; z := $0 |};
     rotation := origin;
     castShadow := true;
     receiveShadow := false;
     shape := sphereGeometry $(25 # 100) 48 48 |}.

Definition created : graph :=
  {| planet := Planet_mesh;
     ring := OrbitRing_mesh;
     orbit := MoonOrbit_group;
     moon := MoonOrbit_mesh |}.

(** The scene during its first render: the objects exist, the refs are
    still [null]. *)
Definition rendered : world :=
  {| objects := created; planetRef := None; group := None |}.

(** The commit attaches each ref to the element that carries it. *)
Definition attach (w : world) : world :=
  {| objects := objects w;
     planetRef := Some planet_mesh;
     group := Some moon_group |}.

Definition mounted : world := attach rendered.

(** ** Per-frame callbacks *)

Definition rotation_y_add (v : num) (o : Object3D) : Object3D :=
  {| position := position o;
     rotation := {| x := x (rotation o);
                    y := y (rotation o) + v;
                    z := z (rotation o) |};
     castShadow := castShadow o;
     receiveShadow := receiveShadow o;
     shape := shape o |}.

(** [r.current.rotation.y += v]; a [null] ref makes the access throw. *)
Definition add_to_rotation_y (r : option object_id) (v : num) (w : world)
  : outcome world :=
  match r with
  | None => Throws TypeError
  | Some i =>
      Returns {| objects := update i (rotation_y_add v) (objects w);
                 planetRef := planetRef w;
                 group := group w |}
  end.

(** The callback that Planet passes to [useFrame]. *)
Definition Planet_useFrame (delta : num) (w : world) : outcome world :=
  if truthy (planetRef w)
  then add_to_rotation_y (planetRef w) (delta * $(1 # 10)) w
  else Returns w.

(** The callback that MoonOrbit passes to [useFrame]. *)
Definition MoonOrbit_useFrame (delta : num) (w : world) : outcome world :=
  if truthy (group w)
  then add_to_rotation_y (group w) (delta * $(4 # 10)) w
  else Returns w.

(** One frame tick: the render loop calls the subscribed callbacks;
    OrbitRing subscribes none. *)
Definition frame (delta : num) (w : world) : outcome world :=
  w1 <- Planet_useFrame delta w ;;
  MoonOrbit_useFrame delta w1.

Fixpoint frames (deltas : list num) (w : world) : outcome world :=
  match deltas with
  | [] => Returns w
  | delta :: rest => w1 <- frame delta w ;; frames rest w1
  end.

(** The two animated angles. *)
Definition planetSpin (w : world) : num := y (rotation (planet (objects w))).
Definition moonOrbitAngle (w : world) : num := y (rotation (orbit (objects w))).

(** The sum [d1 + ... + dn], from the left. *)
Definition total (deltas : list num) : num :=
  fold_left num_add deltas $0.

(** The refs are [null] or attached to the element that carries them. *)
Definition refs_ok (w : world) : Prop :=
  (planetRef w = None \/ planetRef w = Some planet_mesh) /\
  (group w = None \/ group w = Some moon_group).

(** [o'] is [o] but for the angle [rotation.y]. *)
Definition same_but_rotation_y (o o' : Object3D) : Prop :=
  position o' = position o /\
  x (rotation o') = x (rotation o) /\
  z (rotation o') = z (rotation o) /\
  castShadow o' = castShadow o /\
  receiveShadow o' = receiveShadow o /\
  shape o' = shape o.

(** What one tick leaves untouched. *)
Definition tick_preserves (w w' : world) : Prop :=
  moon (objects w') = moon (objects w) /\
  ring (objects w') = ring (objects w) /\
  same_but_rotation_y (planet (objects w)) (planet (objects w')) /\
  same_but_rotation_y (orbit (objects w)) (orbit (objects w')) /\
  planetRef w' = planetRef w /\
  group w' = group w.

(** ** Lights *)

Record light : Type := {
  kind : light_kind;
  light_position : option triple;
  intensity : num;
  light_castShadow : bool;
  shadow_mapSize : option (N * N)     (* width, height *)
}.

Definition Lights : list light :=
  [ {| kind := ambientLight;
       light_position := None;
       intensity := $(35 # 100);
       light_castShadow := false;
       shadow_mapSize := None |};
    {| kind := directionalLight;
       light_position := Some {| x := $3; y := $2; z := $4 |};
       intensity := $(11 # 10);
       light_castShadow := true;
       shadow_mapSize := Some (1024%N, 1024%N) |};
    {| kind := pointLight;
       light_position := Some {| x := $(-4); y := $(-2); z := $(-3) |};
       intensity := $(6 # 10);
       light_castShadow := false;
       shadow_mapSize := None |} ].

Definition lights_of (k : light_kind) (ls : list light) : list light :=
  filter (fun l => if light_kind_eq_dec (kind l) k then true else false) ls.

End Objects.

Arguments triple num : clear implicits.
Arguments geometry num : clear implicits.
Arguments Object3D num : clear implicits.
Arguments graph num : clear implicits.
Arguments world num : clear implicits.
Arguments light num : clear implicits.

End Scene.

(* ================================================================== *)
(** * The page: [Header], [Placeholder], [LandingPage] *)

Module Page.
Import Hero.

(** The attributes that navigation depends on; class names and the
    presentational attributes of the SVG are left out. *)
Record attrs : Type := {
  id : option string;
  href : option string
}.

Definition plain : attrs := {| id := None; href := None |}.
Definition with_id (i : string) : attrs := {| id := Some i; href := None |}.
Definition link (h : string) : attrs := {| id := None; href := Some h |}.

Inductive html : Type :=
| Tag (name : string) (a : attrs) (children : list html)
| Text (s : string).

Definition Header : html :=
  Tag "header" plain
    [ Tag "nav" plain
        [ Tag "a" (link "#home") [ Text "Meerav Shah" ];
          Tag "ul" plain
            [ Tag "li" plain [ Tag "a" (link "#experience") [ Text "Experience" ] ];
              Tag "li" plain [ Tag "a" (link "#projects") [ Text "Projects" ] ];
              Tag "li" plain [ Tag "a" (link "#about") [ Text "About" ] ];
              Tag "li" plain [ Tag "a" (link "#contact") [ Text "Contact" ] ] ] ] ].

Definition FallbackNoWebGL : html :=
  Tag "div" plain
    [ Tag "div" plain [];
      Tag "p" plain [ Text "Your browser can't render 3D. Showing a placeholder." ] ].

Definition ScrollIndicator : html :=
  Tag "div" plain
    [ Tag "div" plain
        [ Tag "svg" plain
            [ Tag "rect" plain [];
              Tag "circle" (with_id "wheel") [] ];
          Tag "span" plain [ Text "Scroll" ] ];
      Tag "style" plain [] ].

Definition Placeholder (id title : string) : html :=
  Tag "section" (with_id id)
    [ Tag "h2" plain [ Text title ];
      Tag "p" plain [ Text "Placeholder content. We'll fill this in later." ] ].

(** The DOM of an element of [Hero3D]. The children of [Canvas] are
    three.js objects, not DOM nodes. *)
Fixpoint dom (e : element) : html :=
  match e with
  | Element t children =>
      match t with
      | section_home => Tag "section" (with_id "home") (map dom children)
      | radial_glow => Tag "div" plain (map dom children)
      | Canvas => Tag "Canvas" plain []
      | fallback_frame => Tag "div" plain (map dom children)
      | Hero.FallbackNoWebGL => FallbackNoWebGL
      | motion_div => Tag "div" plain (map dom children)
      | Hero.ScrollIndicator => ScrollIndicator
      | Lights | Planet | OrbitRing | MoonOrbit => Tag "object3D" plain []
      end
  end.

Definition Hero3D (hasWebGL : bool) : html :=
  dom (Hero3D_view hasWebGL).

(** [year] is the text of [new Date().getFullYear()]. *)
Definition LandingPage (hasWebGL : bool) (year : string) : html :=
  Tag "div" plain
    [ Header;
      Tag "main" plain
        [ Hero3D hasWebGL;
          Placeholder "experience" "Experience";
          Placeholder "projects" "Projects";
          Placeholder "about" "About";
          Placeholder "contact" "Contact" ];
      Tag "footer" plain [ Text "© "; Text year; Text " Meerav Shah" ] ].

(** The ids, the link targets and the texts of a tree, in document
    order. *)
Fixpoint ids (h : html) : list string :=
  match h with
  | Tag _ a children =>
      match id a with
      | Some i => i :: flat_map ids children
      | None => flat_map ids children
      end
  | Text _ => []
  end.

Fixpoint hrefs (h : html) : list string :=
  match h with
  | Tag _ a children =>
      match href a with
      | Some l => l :: flat_map hrefs children
      | None => flat_map hrefs children
      end
  | Text _ => []
  end.

Fixpoint texts (h : html) : list string :=
  match h with
  | Tag _ _ children => flat_map texts children
  | Text s => [s]
  end.

(** The element that a fragment link [#i] scrolls to. *)
Definition resolves (page : html) (l : string) : Prop :=
  exists i, l = String.append "#" i /\ In i (ids page).

End Page.
(* ================================================================== *)
(** * Theorems about the probe *)

Import Probe.

Example probe_modern : probe_result modern_browser = true.
Proof. reflexivity. Qed.

Example probe_legacy : probe_result legacy_browser = true.
Proof. reflexivity. Qed.

Example probe_no_gpu : probe_result no_gpu_browser = false.
Proof. reflexivity. Qed.

Example probe_no_constructor : probe_result no_constructor_browser = false.
Proof. reflexivity. Qed.

Example probe_no_document : probe_result no_document = false.
Proof. reflexivity. Qed.

(** The effect always completes, and leaves in [has] the value of [ok],
    or [false] when computing [ok] threw. *)
Lemma probe_effect_returns (env : environment) (f : fiber) :
  probe_effect env f =
  Returns {| has := Some match probe_ok env with
                         | Returns ok => ok
                         | Throws _ => false
                         end;
             effect_deps := effect_deps f |}.
Proof.
  unfold probe_effect, setHas.
  destruct (probe_ok env) as [ok | e]; reflexivity.
Qed.

Lemma probe_result_ok (env : environment) :
  probe_result env = match probe_ok env with
                     | Returns ok => ok
                     | Throws _ => false
                     end.
Proof.
  unfold probe_result. rewrite probe_effect_returns. reflexivity.
Qed.

(** When [ok] is computed to [true]. *)
Lemma probe_ok_true (env : environment) :
  probe_ok env = Returns true <->
  exposes_constructor env /\
  exists c, document_createElement env "canvas" = Returns c /\
            (creates c "webgl" \/
             (returns_null c "webgl" /\ creates c "experimental-webgl")).
Proof.
  unfold probe_ok, exposes_constructor, creates, returns_null, and_then, or_else.
  destruct (document_createElement env "canvas") as [c | e]; simpl.
  - destruct (window_defined env); simpl.
    + destruct (window_WebGLRenderingContext env) as [k | ]; simpl.
      * destruct (getContext c "webgl") as [[ctx | ] | e1] eqn:E1; simpl.
        -- split; [intros _ | reflexivity].
           split; [split; [reflexivity | discriminate] | ].
           exists c. split; [reflexivity | ]. left. rewrite E1. eauto.
        -- destruct (getContext c "experimental-webgl") as [[ctx | ] | e2] eqn:E2; simpl.
           ++ split; [intros _ | reflexivity].
              split; [split; [reflexivity | discriminate] | ].
              exists c. split; [reflexivity | ]. right.
              rewrite E1, E2. eauto.
           ++ split; [discriminate | ].
              intros (_ & c' & Hc & [[ctx H] | [_ [ctx H]]]);
                inversion Hc; subst c'; congruence.
           ++ split; [discriminate | ].
              intros (_ & c' & Hc & [[ctx H] | [_ [ctx H]]]);
                inversion Hc; subst c'; congruence.
        -- split; [discriminate | ].
           intros (_ & c' & Hc & [[ctx H] | [H _]]);
             inversion Hc; subst c'; congruence.
      * split; [discriminate | ]. intros [[_ H] _]. congruence.
    + split; [discriminate | ]. intros [[H _] _]. discriminate.
  - split; [discriminate | ]. intros (_ & c & Hc & _). discriminate.
Qed.


Lemma supported_in_order_spec (env : environment) :
  supported_in_order env -> spec_supported env.
Proof.
  intros (Hk & c & Hc & [H | [_ H]]); split; trivial; exists c; auto.
Qed.

(** Where [getContext] does not throw, the two conditions agree. *)
Lemma spec_supported_in_order (env : environment) :
  getContext_total env -> spec_supported env -> supported_in_order env.
Proof.
  intros Htot (Hk & c & Hc & H). split; trivial. exists c. split; trivial.
  destruct H as [H | H]; [now left | ].
  destruct (getContext c "webgl") as [[ctx | ] | e] eqn:E.
  - left. exists ctx. exact E.
  - right. split; [exact E | exact H].
  - exfalso. exact (Htot c "webgl" e Hc E).
Qed.

Lemma probe_result_true (env : environment) :
  probe_result env = true <-> supported_in_order env.
Proof.
  rewrite probe_result_ok. unfold supported_in_order.
  rewrite <- probe_ok_true.
  destruct (probe_ok env) as [[ | ] | e]; split; congruence.
Qed.

(** In a browser whose [getContext] never throws, the probe answers as the
    specification words it. *)
Lemma probe_result_spec_total (env : environment) :
  getContext_total env ->
  (probe_result env = true <-> spec_supported env).
Proof.
  intros Htot. rewrite probe_result_true. split.
  - apply supported_in_order_spec.
  - apply spec_supported_in_order, Htot.
Qed.

(** C2, as stated, fails where the primary alias throws: the constructor
    is exposed and the legacy alias would hand out a context, yet the
    exception of the first attempt is caught and the probe reports
    [false]. *)
Lemma C2_primary_alias_throws :
  spec_supported primary_throws_browser /\
  probe_result primary_throws_browser = false.
Proof.
  split; [ | reflexivity].
  split; [split; [reflexivity | discriminate] | ].
  eexists. split; [reflexivity | ].
  right. exists (WebGLContext 2). reflexivity.
Qed.

(** C2, amended: the probe reports [true] if and only if the constructor
    is exposed and a context is handed out for the alias webgl, or, that
    one having returned [null], for the alias experimental-webgl. If the
    constructor is absent, or both aliases return [null], it reports
    [false]. *)
Theorem C2_probe_true_iff_supported_in_order :
  forall env : environment,
    (probe_result env = true <-> supported_in_order env) /\
    (~ exposes_constructor env -> probe_result env = false) /\
    (forall c, document_createElement env "canvas" = Returns c ->
               returns_null c "webgl" ->
               returns_null c "experimental-webgl" ->
               probe_result env = false).
Proof.
  intros env. split; [apply probe_result_true | ]. split.
  - intros Hno. apply not_true_is_false. intros Ht.
    apply probe_result_true in Ht. destruct Ht as [Hk _]. exact (Hno Hk).
  - intros c Hc H1 H2. apply not_true_is_false. intros Ht.
    apply probe_result_true in Ht.
    destruct Ht as (_ & c' & Hc' & [[ctx H] | [_ [ctx H]]]);
      unfold returns_null in *; congruence.
Qed.

(** C3: in every environment the effect of the probe completes without
    an exception; whenever probing threw, and whenever the constructor is
    absent, it leaves [has] at [false]. *)
Theorem C3_probe_never_throws :
  forall (env : environment) (f : fiber),
    exists f',
      probe_effect env f = Returns f' /\
      (throws (probe_ok env) -> has f' = Some false) /\
      (window_WebGLRenderingContext env = None -> has f' = Some false) /\
      (throws (probe_ok env) -> probe_result env = false).
Proof.
  intros env f. eexists. split; [apply probe_effect_returns | ].
  cbn [has]. repeat split.
  - intros [e He]. rewrite He. reflexivity.
  - intros Hno. f_equal.
    destruct (probe_ok env) as [[ | ] | e] eqn:E; trivial.
    apply probe_ok_true in E. destruct E as [[_ Hk] _]. contradiction.
  - intros [e He]. rewrite probe_result_ok, He. reflexivity.
Qed.

(** C2 at sample browsers: the legacy alias alone suffices, and without
    the constructor the probe reports [false] although [getContext] is
    never reached. *)
Lemma C2_legacy_and_no_constructor :
  supported_in_order legacy_browser /\
  probe_result legacy_browser = true /\
  ~ exposes_constructor no_constructor_browser /\
  probe_result no_constructor_browser = false.
Proof.
  assert (Hs : supported_in_order legacy_browser).
  { split; [split; [reflexivity | discriminate] | ].
    eexists. split; [reflexivity | ]. right.
    split; [reflexivity | ]. exists (WebGLContext 2). reflexivity. }
  assert (Hn : ~ exposes_constructor no_constructor_browser).
  { intros [_ H]. apply H. reflexivity. }
  split; [exact Hs | ].
  split;
    [exact (proj2 (proj1 (C2_probe_true_iff_supported_in_order legacy_browser)) Hs) | ].
  split; [exact Hn | ].
  exact (proj1 (proj2 (C2_probe_true_iff_supported_in_order no_constructor_browser)) Hn).
Defined.

(** C3 where the primary alias throws, and where [document] is missing. *)
Lemma C3_throwing_browsers_resolve_false :
  throws (probe_ok primary_throws_browser) /\
  throws (probe_ok no_document) /\
  (exists f', probe_effect primary_throws_browser unmounted = Returns f' /\
              has f' = Some false) /\
  probe_result no_document = false.
Proof.
  assert (H1 : throws (probe_ok primary_throws_browser)).
  { exists InvalidStateError. reflexivity. }
  assert (H2 : throws (probe_ok no_document)).
  { exists ReferenceError. reflexivity. }
  split; [exact H1 | ]. split; [exact H2 | ]. split.
  - destruct (C3_probe_never_throws primary_throws_browser unmounted)
      as (f' & E & Hf & _).
    exists f'. split; [exact E | exact (Hf H1)].
  - destruct (C3_probe_never_throws no_document unmounted)
      as (f' & _ & _ & _ & Hr).
    exact (Hr H2).
Defined.

(* ================================================================== *)
(** * Theorems about the hero section *)

Import Hero.

Lemma view_scene : shows_scene (Hero3D_view true).
Proof. split; reflexivity. Qed.

Lemma view_fallback : shows_fallback (Hero3D_view false).
Proof. split; reflexivity. Qed.

Lemma view_exclusive (b : bool) :
  count Canvas (Hero3D_view b) + count FallbackNoWebGL (Hero3D_view b) = 1.
Proof. destruct b; reflexivity. Qed.

Lemma shows_scene_iff (b : bool) : shows_scene (Hero3D_view b) <-> b = true.
Proof.
  destruct b; split; trivial.
  - intros _. apply view_scene.
  - intros [H _]. discriminate H.
  - discriminate.
Qed.

Lemma shows_fallback_iff (b : bool) : shows_fallback (Hero3D_view b) <-> b = false.
Proof.
  destruct b; split; trivial.
  - intros [H _]. discriminate H.
  - discriminate.
  - intros _. apply view_fallback.
Qed.

(** The first pass renders with the initial state and runs the probe. *)
Lemma Hero3D_first (env : environment) :
  Hero3D env unmounted =
  Returns {| view := Hero3D_view true;
             probed := true;
             next := settled (probe_result env) |}.
Proof.
  unfold Hero3D, useHasWebGL, useHasWebGL_commit, useState, unmounted.
  cbn [has effect_deps deps_changed].
  rewrite probe_effect_returns. cbn [bind fst snd has effect_deps].
  rewrite probe_result_ok. reflexivity.
Qed.

(** A later pass renders with the stored state and runs no effect. *)
Lemma Hero3D_settled (env : environment) (b : bool) :
  Hero3D env (settled b) = Returns (settled_pass b).
Proof. reflexivity. Qed.

Lemma Hero3D_passes_settled (envs : list environment) (b : bool) :
  Hero3D_passes envs (settled b) = Returns (map (fun _ => settled_pass b) envs).
Proof.
  induction envs as [ | env envs IH]; [reflexivity | ].
  cbn [Hero3D_passes map]. rewrite Hero3D_settled. cbn [bind next settled_pass].
  rewrite IH. reflexivity.
Qed.

Lemma Hero3D_passes_mount (env : environment) (envs : list environment) :
  Hero3D_passes (env :: envs) unmounted =
  Returns ({| view := Hero3D_view true;
              probed := true;
              next := settled (probe_result env) |}
           :: map (fun _ => settled_pass (probe_result env)) envs).
Proof.
  cbn [Hero3D_passes]. rewrite Hero3D_first. cbn [bind next].
  rewrite Hero3D_passes_settled. reflexivity.
Qed.

Lemma probes_settled (b : bool) (envs : list environment) :
  probes (map (fun _ => settled_pass b) envs) = 0.
Proof.
  unfold probes. induction envs as [ | env envs IH]; [reflexivity | exact IH].
Qed.

(** C4: every pass of [Hero3D], whatever the hook state it starts from,
    renders exactly one of the canvas and the fallback: the canvas when
    the value read from [useHasWebGL] is [true], the fallback when it is
    [false]. *)
Theorem C4_exactly_one_of_scene_and_fallback :
  forall (env : environment) (f : fiber),
    exists p,
      Hero3D env f = Returns p /\
      view p = Hero3D_view (fst (useHasWebGL f)) /\
      count Canvas (view p) + count FallbackNoWebGL (view p) = 1 /\
      (shows_scene (view p) <-> fst (useHasWebGL f) = true) /\
      (shows_fallback (view p) <-> fst (useHasWebGL f) = false).
Proof.
  intros env f. unfold Hero3D.
  destruct (useHasWebGL f) as [b f1] eqn:E. cbn [fst].
  unfold useHasWebGL_commit.
  destruct (deps_changed (effect_deps f1) []).
  - rewrite probe_effect_returns. cbn [bind]. eexists. split; [reflexivity | ].
    cbn [view]. split; [reflexivity | ].
    split; [apply view_exclusive | ].
    split; [apply shows_scene_iff | apply shows_fallback_iff].
  - cbn [bind]. eexists. split; [reflexivity | ].
    cbn [view]. split; [reflexivity | ].
    split; [apply view_exclusive | ].
    split; [apply shows_scene_iff | apply shows_fallback_iff].
Qed.

(** C5: [has] starts at [true], so the first pass renders the 3D scene,
    in every browser; when the probe of that pass finds no support, the
    second and all later passes render the fallback only. *)
Theorem C5_first_pass_scene_then_corrected :
  forall (env : environment) (envs : list environment),
    fst (useHasWebGL unmounted) = true /\
    exists p ps,
      Hero3D_passes (env :: envs) unmounted = Returns (p :: ps) /\
      shows_scene (view p) /\
      List.length ps = List.length envs /\
      (probe_result env = false ->
       Forall (fun q => shows_fallback (view q) /\ has (next q) = Some false) ps).
Proof.
  intros env envs. split; [reflexivity | ].
  do 2 eexists. split; [apply Hero3D_passes_mount | ].
  cbn [view]. split; [apply view_scene | ].
  split; [apply length_map | ].
  intros Hr. rewrite Hr. apply Forall_forall. intros q Hq.
  apply in_map_iff in Hq. destruct Hq as (_ & <- & _).
  split; [apply view_fallback | reflexivity].
Qed.

(** C5 in a browser without GPU support, over three passes. *)
Lemma C5_no_gpu_three_passes :
  probe_result no_gpu_browser = false /\
  exists p ps,
    Hero3D_passes [no_gpu_browser; no_gpu_browser; modern_browser] unmounted
      = Returns (p :: ps) /\
    shows_scene (view p) /\
    List.length ps = 2 /\
    Forall (fun q => shows_fallback (view q) /\ has (next q) = Some false) ps.
Proof.
  split; [reflexivity | ].
  destruct (C5_first_pass_scene_then_corrected
              no_gpu_browser [no_gpu_browser; modern_browser])
    as (_ & p & ps & E & Hs & Hl & Hf).
  exists p, ps. split; [exact E | ]. split; [exact Hs | ].
  split; [exact Hl | exact (Hf eq_refl)].
Defined.

(** A browser that loses its GPU after the mount keeps the scene: the
    probe is not run again. *)
Example passes_after_gpu_loss :
  Hero3D_passes [legacy_browser; no_gpu_browser; no_document] unmounted =
  Returns [ {| view := Hero3D_view true; probed := true; next := settled true |};
            settled_pass true;
            settled_pass true ].
Proof. reflexivity. Qed.

(** C8: over any number of passes of one mounted [Hero3D], and whatever
    the browser becomes meanwhile, the probe runs exactly once, in the
    commit of the first pass; every later pass runs no probe, reads the
    result of that one probe and renders the same variant, so the only
    change of variant is the one after the first pass. *)
Theorem C8_probe_runs_once :
  forall (env : environment) (envs : list environment),
    exists p ps,
      Hero3D_passes (env :: envs) unmounted = Returns (p :: ps) /\
      probed p = true /\
      probes (p :: ps) = 1 /\
      List.length ps = List.length envs /\
      Forall (fun q => probed q = false /\
                       has (next q) = Some (probe_result env) /\
                       view q = Hero3D_view (probe_result env)) ps.
Proof.
  intros env envs.
  do 2 eexists. split; [apply Hero3D_passes_mount | ].
  split; [reflexivity | ].
  split.
  - unfold probes. cbn [filter probed List.length].
    f_equal. apply probes_settled.
  - split; [apply length_map | ].
    apply Forall_forall. intros q Hq.
    apply in_map_iff in Hq. destruct Hq as (_ & <- & _).
    repeat split.
Qed.

(* ================================================================== *)
(** * Theorems about the scroll indicator *)

Import Style.

Lemma wheel_is_styled_only (p : preferences) :
  computed_animation p ScrollIndicator_rules svg_rect = animation_none.
Proof. destruct p as [[ | ]]; reflexivity. Qed.

(** C9: the scroll indicator is rendered whatever the probe found; with
    the reduced-motion preference active the wheel has no animation,
    and otherwise it runs the animation wheel, 1.8 seconds a cycle,
    without end. *)
Theorem C9_reduced_motion_suppresses_wheel :
  forall (hasWebGL : bool) (p : preferences),
    count ScrollIndicator (Hero3D_view hasWebGL) = 1 /\
    computed_animation p ScrollIndicator_rules svg_wheel =
      (if reduced_motion p
       then animation_none
       else animate "wheel" 1800 ease_in_out infinite).
Proof.
  intros hasWebGL [[ | ]]; split; try reflexivity; destruct hasWebGL; reflexivity.
Qed.

(* ================================================================== *)
(** * Theorems about the scene *)

Import Number Scene.

Section SceneFacts.
Context {num : Type} {arith : Arith num}.

Lemma update_lookup_same (i : object_id) (f : Object3D num -> Object3D num)
      (g : graph num) :
  lookup i (update i f g) = f (lookup i g).
Proof. destruct i; reflexivity. Qed.

Lemma update_lookup_other (i j : object_id) (f : Object3D num -> Object3D num)
      (g : graph num) :
  i <> j -> lookup j (update i f g) = lookup j g.
Proof. destruct i, j; intros H; try reflexivity; now contradiction H. Qed.

Lemma rotation_y_add_same_but (v : num) (o : Object3D num) :
  same_but_rotation_y o (rotation_y_add v o).
Proof. repeat split. Qed.

Lemma same_but_rotation_y_refl (o : Object3D num) : same_but_rotation_y o o.
Proof. repeat split. Qed.

Lemma same_but_rotation_y_trans (a b c : Object3D num) :
  same_but_rotation_y a b -> same_but_rotation_y b c -> same_but_rotation_y a c.
Proof.
  unfold same_but_rotation_y.
  intros (H1 & H2 & H3 & H4 & H5 & H6) (K1 & K2 & K3 & K4 & K5 & K6).
  repeat split; congruence.
Qed.

(** The guard of each callback is what keeps the access from throwing. *)
Lemma Planet_useFrame_returns (delta : num) (w : world num) :
  Planet_useFrame delta w =
  Returns match planetRef w with
          | Some i =>
              {| objects := update i (rotation_y_add (num_mul delta (num_lit (1 # 10))))
                                   (objects w);
                 planetRef := planetRef w;
                 group := group w |}
          | None => w
          end.
Proof.
  unfold Planet_useFrame, add_to_rotation_y. destruct (planetRef w); reflexivity.
Qed.

Lemma MoonOrbit_useFrame_returns (delta : num) (w : world num) :
  MoonOrbit_useFrame delta w =
  Returns match group w with
          | Some i =>
              {| objects := update i (rotation_y_add (num_mul delta (num_lit (4 # 10))))
                                   (objects w);
                 planetRef := planetRef w;
                 group := group w |}
          | None => w
          end.
Proof.
  unfold MoonOrbit_useFrame, add_to_rotation_y. destruct (group w); reflexivity.
Qed.

Lemma tick_preserves_refl (w : world num) : tick_preserves w w.
Proof.
  unfold tick_preserves. repeat split.
Qed.

Lemma tick_preserves_trans (a b c : world num) :
  tick_preserves a b -> tick_preserves b c -> tick_preserves a c.
Proof.
  unfold tick_preserves.
  intros (H1 & H2 & H3 & H4 & H5 & H6) (K1 & K2 & K3 & K4 & K5 & K6).
  split; [congruence | ]. split; [congruence | ].
  split; [eapply same_but_rotation_y_trans; eassumption | ].
  split; [eapply same_but_rotation_y_trans; eassumption | ].
  split; congruence.
Qed.

Lemma tick_preserves_refs_ok (w w' : world num) :
  tick_preserves w w' -> refs_ok w -> refs_ok w'.
Proof.
  unfold tick_preserves, refs_ok.
  intros (_ & _ & _ & _ & -> & ->). trivial.
Qed.

Lemma frame_preserves (delta : num) (w : world num) :
  refs_ok w ->
  exists w', frame delta w = Returns w' /\ tick_preserves w w'.
Proof.
  intros [Hp Hg]. destruct w as [g p r]. cbn [planetRef group] in Hp, Hg.
  unfold frame.
  rewrite Planet_useFrame_returns. cbn [bind].
  rewrite MoonOrbit_useFrame_returns.
  eexists. split; [reflexivity | ].
  destruct Hp as [-> | ->], Hg as [-> | ->];
    unfold tick_preserves; cbn; repeat split.
Qed.

Lemma frames_preserve (deltas : list num) :
  forall w : world num,
    refs_ok w ->
    exists w', frames deltas w = Returns w' /\ tick_preserves w w'.
Proof.
  induction deltas as [ | delta rest IH]; intros w Hok.
  - exists w. split; [reflexivity | apply tick_preserves_refl].
  - destruct (frame_preserves delta Hok) as (w1 & E1 & P1).
    destruct (IH w1 (tick_preserves_refs_ok P1 Hok)) as (w2 & E2 & P2).
    exists w2. cbn [frames]. rewrite E1. cbn [bind].
    split; [exact E2 | eapply tick_preserves_trans; eassumption].
Qed.

(** X11: with the refs [null] or attached to their own elements, the
    two callbacks act on different objects, so the order in which the
    render loop calls them within a tick does not matter. *)
Lemma frame_order_irrelevant (delta : num) (w : world num) :
  refs_ok w ->
  frame delta w = (w1 <- MoonOrbit_useFrame delta w ;; Planet_useFrame delta w1).
Proof.
  intros [Hp Hg]. destruct w as [g p r]. cbn [planetRef group] in Hp, Hg.
  unfold frame.
  rewrite Planet_useFrame_returns, MoonOrbit_useFrame_returns. cbn [bind].
  rewrite Planet_useFrame_returns, MoonOrbit_useFrame_returns.
  destruct Hp as [-> | ->], Hg as [-> | ->]; reflexivity.
Qed.

(** With both refs attached, the two angles are accumulated tick by
    tick, from the left. *)
Lemma frame_attached (delta : num) (w : world num) :
  planetRef w = Some planet_mesh ->
  group w = Some moon_group ->
  exists w',
    frame delta w = Returns w' /\
    planetRef w' = Some planet_mesh /\
    group w' = Some moon_group /\
    planetSpin w' = num_add (planetSpin w) (num_mul delta (num_lit (1 # 10))) /\
    moonOrbitAngle w' = num_add (moonOrbitAngle w) (num_mul delta (num_lit (4 # 10))).
Proof.
  destruct w as [g p r]. cbn [planetRef group]. intros -> ->.
  unfold frame.
  rewrite Planet_useFrame_returns. cbn [bind].
  rewrite MoonOrbit_useFrame_returns.
  eexists. split; [reflexivity | ].
  cbn. repeat split.
Qed.

Lemma frames_attached (deltas : list num) :
  forall w : world num,
    planetRef w = Some planet_mesh ->
    group w = Some moon_group ->
    exists w',
      frames deltas w = Returns w' /\
      planetSpin w' =
        fold_left (fun a d => num_add a (num_mul d (num_lit (1 # 10))))
                  deltas (planetSpin w) /\
      moonOrbitAngle w' =
        fold_left (fun a d => num_add a (num_mul d (num_lit (4 # 10))))
                  deltas (moonOrbitAngle w).
Proof.
  induction deltas as [ | delta rest IH]; intros w Hp Hg.
  - exists w. repeat split.
  - destruct (frame_attached delta w Hp Hg) as (w1 & E1 & Hp1 & Hg1 & S1 & M1).
    destruct (IH w1 Hp1 Hg1) as (w2 & E2 & S2 & M2).
    exists w2. cbn [frames fold_left]. rewrite E1. cbn [bind].
    rewrite <- S1, <- M1. auto.
Qed.

(** The literals of the JSX are the declared constants. *)
Lemma moon_at_orbit_radius :
  position (MoonOrbit_mesh (num := num)) =
  {| x := ORBIT_RADIUS; y := num_lit 0; z := num_lit 0 |}.
Proof. reflexivity. Qed.

Lemma ring_has_orbit_tilt :
  rotation (OrbitRing_mesh (num := num)) = ORBIT_TILT /\
  shape (OrbitRing_mesh (num := num)) =
    torusGeometry ORBIT_RADIUS (num_lit (1 # 100)) 16 256.
Proof. split; reflexivity. Qed.

(** C10: neither callback ever throws; while its ref is [null] it
    returns the state as it found it, and otherwise it adds its step to
    [rotation.y] of the object the ref points to, and nothing else. *)
Theorem C10_null_ref_leaves_state_unchanged :
  forall (delta : num) (w : world num),
    (exists w', Planet_useFrame delta w = Returns w') /\
    (exists w', MoonOrbit_useFrame delta w = Returns w') /\
    (planetRef w = None -> Planet_useFrame delta w = Returns w) /\
    (group w = None -> MoonOrbit_useFrame delta w = Returns w) /\
    (planetRef w = None -> group w = None -> frame delta w = Returns w) /\
    (forall i, planetRef w = Some i ->
       Planet_useFrame delta w =
       Returns {| objects := update i (rotation_y_add (num_mul delta (num_lit (1 # 10))))
                                    (objects w);
                  planetRef := planetRef w;
                  group := group w |}) /\
    (forall i, group w = Some i ->
       MoonOrbit_useFrame delta w =
       Returns {| objects := update i (rotation_y_add (num_mul delta (num_lit (4 # 10))))
                                    (objects w);
                  planetRef := planetRef w;
                  group := group w |}).
Proof.
  intros delta w.
  split; [eexists; apply Planet_useFrame_returns | ].
  split; [eexists; apply MoonOrbit_useFrame_returns | ].
  split; [intros H; rewrite Planet_useFrame_returns, H; reflexivity | ].
  split; [intros H; rewrite MoonOrbit_useFrame_returns, H; reflexivity | ].
  split.
  - intros Hp Hg. unfold frame.
    rewrite Planet_useFrame_returns, Hp. cbn [bind].
    rewrite MoonOrbit_useFrame_returns, Hg. reflexivity.
  - split; intros i H.
    + rewrite Planet_useFrame_returns, H. reflexivity.
    + rewrite MoonOrbit_useFrame_returns, H. reflexivity.
Qed.

(** C6: over any ticks, from any state whose refs are [null] or
    attached to their own elements, the moon mesh and the ring mesh are
    left exactly as they were (position, tilt, geometry and all), and of
    the planet mesh and the orbit group nothing changes but
    [rotation.y]. *)
Theorem C6_ticks_change_only_the_two_angles :
  forall (deltas : list num) (w : world num),
    refs_ok w ->
    exists w',
      frames deltas w = Returns w' /\
      position (moon (objects w')) = position (moon (objects w)) /\
      moon (objects w') = moon (objects w) /\
      rotation (ring (objects w')) = rotation (ring (objects w)) /\
      shape (ring (objects w')) = shape (ring (objects w)) /\
      ring (objects w') = ring (objects w) /\
      same_but_rotation_y (planet (objects w)) (planet (objects w')) /\
      same_but_rotation_y (orbit (objects w)) (orbit (objects w')).
Proof.
  intros deltas w Hok.
  destruct (frames_preserve deltas Hok) as (w' & E & Hm & Hr & Hp & Ho & _).
  exists w'. split; [exact E | ].
  rewrite Hm, Hr. repeat split; try assumption; apply Hp || apply Ho.
Qed.

(** C7, amended: the scene has three lights, in this order: an ambient
    light of intensity 0.35, without position or shadow; the directional
    key light of intensity 1.1 at (3, 2, 4), which alone casts shadows,
    on a shadow map of 1024 by 1024; and a point light of intensity 0.6
    at (-4, -2, -3), without shadows. The canvas holds them once. *)
Theorem C7_three_lights_one_casts_shadows :
  List.length (Lights (num := num)) = 3 /\
  map kind (Lights (num := num)) = [ambientLight; directionalLight; pointLight] /\
  map intensity (Lights (num := num)) =
    [num_lit (35 # 100); num_lit (11 # 10); num_lit (6 # 10)] /\
  map light_position (Lights (num := num)) =
    [ None;
      Some {| x := num_lit 3; y := num_lit 2; z := num_lit 4 |};
      Some {| x := num_lit (-4); y := num_lit (-2); z := num_lit (-3) |} ] /\
  map light_castShadow (Lights (num := num)) = [false; true; false] /\
  map shadow_mapSize (Lights (num := num)) =
    [None; Some (1024%N, 1024%N); None] /\
  List.length (lights_of directionalLight (Lights (num := num))) = 1 /\
  List.length (lights_of pointLight (Lights (num := num))) = 1 /\
  List.length (lights_of ambientLight (Lights (num := num))) = 1 /\
  count Hero.Lights (Hero3D_view true) = 1.
Proof. repeat split. Qed.

End SceneFacts.

(* ================================================================== *)
(** * The scene in binary64 *)

Section Binary64.
Open Scope float_scope.

Lemma binary64_neq (a b : float) :
  PrimFloat.eqb a b = false -> PrimFloat.eqb b b = true -> a <> b.
Proof. intros Hab Hbb E. subst a. congruence. Qed.

(** The literals of the source are read as the nearest doubles. *)
Example literals_binary64 :
  num_lit (1 # 10) = 0.1 /\ num_lit (4 # 10) = 0.4 /\
  num_lit (2 # 10) = 0.2 /\ num_lit (21 # 10) = 2.1 /\
  num_lit (25 # 100) = 0.25 /\ num_lit (28 # 10) = 2.8 /\
  num_lit (12 # 10) = 1.2 /\ num_lit (1 # 100) = 0.01 /\
  num_lit (35 # 100) = 0.35 /\ num_lit (11 # 10) = 1.1 /\
  num_lit (6 # 10) = 0.6 /\ num_lit 0 = 0 /\
  num_lit 3 = 3 /\ num_lit (-4) = -4.
Proof. repeat split. Qed.

Example PI_binary64 :
  num_PI = 3.141592653589793 /\
  num_lit (num_PI (num := Q)) = num_PI (num := float).
Proof. split; reflexivity. Qed.

Example mounted_angles_binary64 :
  planetSpin (mounted (num := float)) = 0 /\
  moonOrbitAngle (mounted (num := float)) = 0.2.
Proof. split; reflexivity. Qed.

(** Two ticks of 16 ms and 17 ms. *)
Example two_ticks_binary64 :
  exists w' : world float,
    frames [0.016; 0.017] mounted = Returns w' /\
    planetSpin w' = 0.0033 /\
    moonOrbitAngle w' = 0.2132 /\
    0.1 * total [0.016; 0.017] = 0.0033000000000000004 /\
    0.4 * total [0.016; 0.017] = 0.013200000000000002.
Proof. eexists. split; [reflexivity | ]. repeat split. Qed.

(** Without any tick the orbit group already stands at its inclination. *)
Example no_tick_binary64 :
  frames [] (mounted (num := float)) = Returns mounted /\
  moonOrbitAngle (mounted (num := float)) <> 0.4 * total [].
Proof.
  split; [reflexivity | ]. apply binary64_neq; reflexivity.
Qed.

(** C1, as stated, fails on the code: after ticks of 16 ms and 17 ms the
    spin is not [0.1 * (d1 + d2)], the orbit angle is not
    [0.4 * (d1 + d2)], and the orbit angle is not 4 times the spin. *)
Lemma C1_two_ticks_off_the_closed_form :
  exists w' : world float,
    frames [0.016; 0.017] mounted = Returns w' /\
    planetSpin w' <> 0.1 * total [0.016; 0.017] /\
    moonOrbitAngle w' <> 0.4 * total [0.016; 0.017] /\
    moonOrbitAngle w' <> 4 * planetSpin w'.
Proof.
  eexists. split; [reflexivity | ].
  repeat split; apply binary64_neq; reflexivity.
Qed.

(** The intensities of the three lights, as doubles. *)
Example lights_binary64 :
  map (fun l => (kind l, intensity l)) (Lights (num := float)) =
  [ (ambientLight, 0.35); (directionalLight, 1.1); (pointLight, 0.6) ].
Proof. reflexivity. Qed.

(** C7, as stated, fails: the lights are not two. *)
Lemma C7_lights_are_not_two :
  List.length (Lights (num := float)) <> 2%nat.
Proof. discriminate. Qed.

(** C6 at the mounted scene, over two ticks. *)
Lemma C6_mounted_two_ticks :
  refs_ok (mounted (num := float)) /\
  exists w' : world float,
    frames [0.016; 0.017] mounted = Returns w' /\
    position (moon (objects w')) = position (moon (objects mounted)) /\
    moon (objects w') = moon (objects mounted) /\
    rotation (ring (objects w')) = rotation (ring (objects mounted)) /\
    shape (ring (objects w')) = shape (ring (objects mounted)) /\
    ring (objects w') = ring (objects mounted) /\
    same_but_rotation_y (planet (objects mounted)) (planet (objects w')) /\
    same_but_rotation_y (orbit (objects mounted)) (orbit (objects w')).
Proof.
  assert (Hok : refs_ok (mounted (num := float))).
  { split; right; reflexivity. }
  split; [exact Hok | ].
  exact (C6_ticks_change_only_the_two_angles [0.016; 0.017] Hok).
Defined.

(** C10 at the scene whose refs are not yet attached. *)
Lemma C10_rendered_tick_is_a_no_op :
  planetRef (rendered (num := float)) = None /\
  group (rendered (num := float)) = None /\
  frame 0.016 rendered = Returns rendered /\
  Planet_useFrame 0.016 rendered = Returns rendered /\
  MoonOrbit_useFrame 0.016 rendered = Returns rendered.
Proof.
  destruct (C10_null_ref_leaves_state_unchanged 0.016 (rendered (num := float)))
    as (_ & _ & Hp & Hg & Hf & _).
  split; [reflexivity | ]. split; [reflexivity | ].
  split; [exact (Hf eq_refl eq_refl) | ].
  split; [exact (Hp eq_refl) | exact (Hg eq_refl)].
Defined.

End Binary64.

(* ================================================================== *)
(** * The scene in exact arithmetic *)

Section Exact.
Open Scope Q_scope.

Lemma total_from (deltas : list Q) :
  forall a : Q, fold_left Qplus deltas a == a + fold_left Qplus deltas 0.
Proof.
  induction deltas as [ | d rest IH]; intros a; cbn [fold_left].
  - ring.
  - rewrite (IH (a + d)), (IH (0 + d)). ring.
Qed.

(** A constant rate [k] accumulated over the ticks is [k] times their sum. *)
Lemma accumulated_rate (k : Q) (deltas : list Q) :
  forall a : Q,
    fold_left (fun acc d => acc + d * k) deltas a
    == a + k * fold_left Qplus deltas 0.
Proof.
  induction deltas as [ | d rest IH]; intros a; cbn [fold_left].
  - ring.
  - rewrite (IH (a + d * k)), (total_from rest (0 + d)). ring.
Qed.

(** C1, amended: in binary64 the two angles are accumulated tick by
    tick from the left, each product and each sum rounded, the spin from
    0 and the orbit angle from the inclination 0.2 of the group. In exact
    arithmetic that makes the spin [0.1 * (d1 + ... + dn)] and the orbit
    angle [0.2 + 0.4 * (d1 + ... + dn)], so that the orbit advances 4
    times as far as the planet spins. *)
Theorem C1_angles_accumulate :
  forall (ticks : list float) (deltas : list Q),
    (exists w' : world float,
       frames ticks mounted = Returns w' /\
       planetSpin w' =
         fold_left (fun acc d => PrimFloat.add acc (PrimFloat.mul d 0.1%float))
                   ticks 0%float /\
       moonOrbitAngle w' =
         fold_left (fun acc d => PrimFloat.add acc (PrimFloat.mul d 0.4%float))
                   ticks 0.2%float) /\
    (exists w' : world Q,
       frames deltas mounted = Returns w' /\
       planetSpin w' == (1 # 10) * total deltas /\
       moonOrbitAngle w' == (2 # 10) + (4 # 10) * total deltas /\
       moonOrbitAngle w' - moonOrbitAngle (mounted (num := Q))
       == 4 * (planetSpin w' - planetSpin (mounted (num := Q)))).
Proof.
  intros ticks deltas. split.
  - destruct (frames_attached ticks (mounted (num := float)) eq_refl eq_refl)
      as (w' & E & Hs & Hm).
    exists w'. split; [exact E | ]. split; [exact Hs | exact Hm].
  - destruct (frames_attached deltas (mounted (num := Q)) eq_refl eq_refl)
      as (w' & E & Hs & Hm).
    exists w'. split; [exact E | ].
    assert (Ks : planetSpin w' == (1 # 10) * total deltas).
    { rewrite Hs. cbn [num_add num_mul num_lit exact].
      rewrite accumulated_rate. unfold total. cbn. ring. }
    assert (Km : moonOrbitAngle w' == (2 # 10) + (4 # 10) * total deltas).
    { rewrite Hm. cbn [num_add num_mul num_lit exact].
      rewrite accumulated_rate. unfold total. cbn. ring. }
    split; [exact Ks | ]. split; [exact Km | ].
    rewrite Ks, Km. cbn. ring.
Qed.

End Exact.

(* ================================================================== *)
(** * Further properties of the probe *)

Section ProbeOrder.

(** X1: the probe evaluates from left to right and stops early. With a
    canvas at hand, when [window] or the constructor is missing [ok] is
    [false] without [getContext] being called, so not even a throwing
    [getContext] raises; and when the primary alias hands out a context
    [ok] is [true] whatever the legacy alias would do. *)
Theorem X1_probe_short_circuits :
  forall (env : environment) (c : canvas),
    document_createElement env "canvas" = Returns c ->
    (window_defined env = false \/ window_WebGLRenderingContext env = None ->
     probe_ok env = Returns false) /\
    (window_defined env = true ->
     window_WebGLRenderingContext env <> None ->
     creates c "webgl" ->
     probe_ok env = Returns true).
Proof.
  intros env c Hc. unfold probe_ok, and_then, or_else. rewrite Hc. cbn [bind].
  split.
  - intros [Hw | Hk].
    + rewrite Hw. reflexivity.
    + rewrite Hk. destruct (window_defined env); reflexivity.
  - intros Hw Hk [ctx Hctx]. rewrite Hw, Hctx.
    destruct (window_WebGLRenderingContext env); [reflexivity | contradiction].
Qed.

Lemma X1_short_circuit_samples :
  probe_ok no_constructor_browser = Returns false /\
  probe_ok (browser (canvas_of (Returns (Some (WebGLContext 1))) (Throws TypeError))
                    (Some WebGLRenderingContextCtor)) = Returns true.
Proof.
  split.
  - exact (proj1 (X1_probe_short_circuits no_constructor_browser eq_refl)
                 (or_intror eq_refl)).
  - refine (proj2 (X1_probe_short_circuits
                     (browser (canvas_of (Returns (Some (WebGLContext 1)))
                                         (Throws TypeError))
                              (Some WebGLRenderingContextCtor))
                     eq_refl) eq_refl _ _).
    + discriminate.
    + exists (WebGLContext 1). reflexivity.
Defined.

(** X2: the probe reads nothing of the browser but the outcome of
    creating the canvas, whether [window] is defined, the constructor,
    and [getContext] at the aliases webgl and experimental-webgl: two
    browsers that agree on these get the same result, whatever else
    (another alias, say) their canvases answer. *)
Theorem X2_probe_reads_two_aliases_only :
  forall (env1 env2 : environment) (c1 c2 : canvas),
    document_createElement env1 "canvas" = Returns c1 ->
    document_createElement env2 "canvas" = Returns c2 ->
    window_defined env1 = window_defined env2 ->
    window_WebGLRenderingContext env1 = window_WebGLRenderingContext env2 ->
    getContext c1 "webgl" = getContext c2 "webgl" ->
    getContext c1 "experimental-webgl" = getContext c2 "experimental-webgl" ->
    probe_result env1 = probe_result env2.
Proof.
  intros env1 env2 c1 c2 H1 H2 Hw Hk Hp Hl.
  rewrite !probe_result_ok. unfold probe_ok.
  rewrite H1, H2, Hw, Hk. cbn [bind]. rewrite Hp, Hl. reflexivity.
Qed.

Lemma X2_webgl2_is_not_asked :
  probe_result no_gpu_browser =
  probe_result
    (browser {| getContext := fun alias =>
                  if String.eqb alias "webgl2"
                  then Returns (Some (WebGLContext 3))
                  else Returns None |}
             (Some WebGLRenderingContextCtor)).
Proof.
  exact (X2_probe_reads_two_aliases_only
           no_gpu_browser
           (browser {| getContext := fun alias =>
                         if String.eqb alias "webgl2"
                         then Returns (Some (WebGLContext 3))
                         else Returns None |}
                    (Some WebGLRenderingContextCtor))
           eq_refl eq_refl eq_refl eq_refl eq_refl eq_refl).
Defined.

End ProbeOrder.

(* ================================================================== *)
(** * Further properties of the hero section *)

Section HeroMore.

(** X3: the second pass renders something else than the first exactly
    when the probe found no support: a browser with WebGL never sees a
    swap, one without always sees the scene replaced by the fallback. *)
Theorem X3_swap_iff_unsupported :
  forall (env env2 : environment) (envs : list environment),
    exists p q ps,
      Hero3D_passes (env :: env2 :: envs) unmounted = Returns (p :: q :: ps) /\
      (view q = view p <-> probe_result env = true) /\
      (view q <> view p <-> probe_result env = false).
Proof.
  intros env env2 envs.
  do 3 eexists.
  split; [rewrite Hero3D_passes_mount; cbn [map]; reflexivity | ].
  cbn [view settled_pass].
  destruct (probe_result env); split; split; trivial; try discriminate.
  intros H. contradiction H. reflexivity.
Qed.

(** X4: the four 3D components are rendered exactly when the canvas is,
    once each, and the frame of the fallback exactly when the fallback
    is; the section, the glow, the overlay and the scroll indicator are
    rendered once in either case. *)
Theorem X4_scene_components_follow_canvas :
  forall hasWebGL : bool,
    count Hero.Lights (Hero3D_view hasWebGL) = count Canvas (Hero3D_view hasWebGL) /\
    count Planet (Hero3D_view hasWebGL) = count Canvas (Hero3D_view hasWebGL) /\
    count OrbitRing (Hero3D_view hasWebGL) = count Canvas (Hero3D_view hasWebGL) /\
    count MoonOrbit (Hero3D_view hasWebGL) = count Canvas (Hero3D_view hasWebGL) /\
    count fallback_frame (Hero3D_view hasWebGL)
      = count FallbackNoWebGL (Hero3D_view hasWebGL) /\
    count section_home (Hero3D_view hasWebGL) = 1 /\
    count radial_glow (Hero3D_view hasWebGL) = 1 /\
    count motion_div (Hero3D_view hasWebGL) = 1 /\
    count ScrollIndicator (Hero3D_view hasWebGL) = 1.
Proof. intros [ | ]; repeat split. Qed.

End HeroMore.

(* ================================================================== *)
(** * Further properties of the style sheet *)

Section StyleMore.

(** X5: the sheet animates nothing but the element with the id wheel,
    whatever the user's preferences. *)
Theorem X5_only_the_wheel_is_animated :
  forall (p : preferences) (n : node),
    node_id n <> Some "wheel" ->
    computed_animation p ScrollIndicator_rules n = animation_none.
Proof.
  intros p n Hn.
  assert (Hs : selects (by_id "wheel") n = false).
  { unfold selects. destruct (node_id n) as [j | ]; [ | reflexivity].
    apply String.eqb_neq. intros E. apply Hn. rewrite E. reflexivity. }
  unfold computed_animation, ScrollIndicator_rules, applies.
  cbn [fold_left media target animation_value].
  rewrite Hs, !andb_false_r. reflexivity.
Qed.

Lemma X5_rect_and_foreign_id :
  computed_animation {| reduced_motion := false |} ScrollIndicator_rules svg_rect
    = animation_none /\
  computed_animation {| reduced_motion := false |} ScrollIndicator_rules
                     {| node_name := "circle"; node_id := Some "wheels" |}
    = animation_none.
Proof.
  split.
  - apply X5_only_the_wheel_is_animated. discriminate.
  - apply X5_only_the_wheel_is_animated. discriminate.
Defined.

End StyleMore.

(* ================================================================== *)
(** * Properties of the page *)

Section PageFacts.

Lemma page_ids (hasWebGL : bool) (year : string) :
  Page.ids (Page.LandingPage hasWebGL year) =
  ["home"; "wheel"; "experience"; "projects"; "about"; "contact"].
Proof. destruct hasWebGL; reflexivity. Qed.

Lemma page_hrefs (hasWebGL : bool) (year : string) :
  Page.hrefs (Page.LandingPage hasWebGL year) =
  ["#home"; "#experience"; "#projects"; "#about"; "#contact"].
Proof. destruct hasWebGL; reflexivity. Qed.

(** X6: whatever the probe found and whatever the year, no two elements
    of the page carry the same id; so the selector of the style sheet
    and each link of the header have one target at most. *)
Theorem X6_page_ids_are_unique :
  forall (hasWebGL : bool) (year : string),
    NoDup (Page.ids (Page.LandingPage hasWebGL year)).
Proof.
  intros hasWebGL year. rewrite page_ids.
  repeat (constructor; [cbn; intuition discriminate | ]). constructor.
Qed.

(** X7: every link of the page is a fragment link to an id that the
    page has, in the scene variant as in the fallback variant; and every
    id but that of the wheel is the target of a link. *)
Theorem X7_page_links_resolve :
  forall (hasWebGL : bool) (year : string),
    Forall (Page.resolves (Page.LandingPage hasWebGL year))
           (Page.hrefs (Page.LandingPage hasWebGL year)) /\
    Forall (fun i => i = "wheel" \/
                     In (String.append "#" i)
                        (Page.hrefs (Page.LandingPage hasWebGL year)))
           (Page.ids (Page.LandingPage hasWebGL year)).
Proof.
  intros hasWebGL year. unfold Page.resolves.
  rewrite page_ids, page_hrefs. split.
  - repeat (constructor; [eexists; split; [reflexivity | cbn; tauto] | ]).
    constructor.
  - repeat (constructor; [cbn; tauto | ]). constructor.
Qed.

(** X8: the hero shows the text of the fallback exactly when the probe
    found no support. *)
Theorem X8_fallback_text_iff_unsupported :
  forall hasWebGL : bool,
    In "Your browser can't render 3D. Showing a placeholder."
       (Page.texts (Page.Hero3D hasWebGL))
    <-> hasWebGL = false.
Proof.
  intros [ | ]; cbn; split; intros H; try reflexivity; try discriminate.
  - destruct H as [H | []]. discriminate H.
  - left. reflexivity.
Qed.

End PageFacts.

(* ================================================================== *)
(** * Further properties of the per-frame callbacks *)

Section FramesMore.
Context {num : Type} {arith : Arith num}.

(** X9: as long as both refs are [null], ticks accumulate nothing: any
    sequence of them returns the state it started from. *)
Theorem X9_unattached_ticks_accumulate_nothing :
  forall (deltas : list num) (w : world num),
    planetRef w = None ->
    group w = None ->
    frames deltas w = Returns w.
Proof.
  induction deltas as [ | delta rest IH]; intros w Hp Hg; [reflexivity | ].
  cbn [frames]. unfold frame.
  rewrite Planet_useFrame_returns, Hp. cbn [bind].
  rewrite MoonOrbit_useFrame_returns, Hg. cbn [bind].
  apply IH; assumption.
Qed.

(** X10: a tick with only the ref of the planet attached spins the planet
    and leaves the orbit group, with all the rest, as it was; and the
    other way round. *)
Theorem X10_one_ref_attached :
  forall (delta : num) (w : world num),
    (planetRef w = Some planet_mesh -> group w = None ->
     exists w', frame delta w = Returns w' /\
                planetSpin w' = num_add (planetSpin w) (num_mul delta (num_lit (1 # 10))) /\
                orbit (objects w') = orbit (objects w) /\
                moon (objects w') = moon (objects w) /\
                ring (objects w') = ring (objects w)) /\
    (planetRef w = None -> group w = Some moon_group ->
     exists w', frame delta w = Returns w' /\
                moonOrbitAngle w' =
                  num_add (moonOrbitAngle w) (num_mul delta (num_lit (4 # 10))) /\
                planet (objects w') = planet (objects w) /\
                moon (objects w') = moon (objects w) /\
                ring (objects w') = ring (objects w)).
Proof.
  intros delta [g p r]. cbn [planetRef group]. split; intros -> ->.
  - unfold frame. rewrite Planet_useFrame_returns. cbn [bind planetRef].
    rewrite MoonOrbit_useFrame_returns. cbn [group].
    eexists. split; [reflexivity | ]. repeat split.
  - unfold frame. rewrite Planet_useFrame_returns. cbn [bind planetRef].
    rewrite MoonOrbit_useFrame_returns. cbn [group].
    eexists. split; [reflexivity | ]. repeat split.
Qed.

End FramesMore.

Section FramesBinary64.
Open Scope float_scope.

Lemma X9_rendered_three_ticks :
  frames [0.016; 0.017; 0.016] (rendered (num := float)) = Returns rendered.
Proof.
  exact (X9_unattached_ticks_accumulate_nothing
           [0.016; 0.017; 0.016] (rendered (num := float)) eq_refl eq_refl).
Defined.

(** The state between the two attachments, had the planet come first. *)
Lemma X10_planet_attached_first :
  exists w' : world float,
    frame 0.5 {| objects := created; planetRef := Some planet_mesh; group := None |}
      = Returns w' /\
    planetSpin w' = 0.05 /\
    moonOrbitAngle w' = 0.2.
Proof.
  destruct (proj1 (X10_one_ref_attached 0.5
                     {| objects := created (num := float);
                        planetRef := Some planet_mesh; group := None |})
                  eq_refl eq_refl)
    as (w' & E & Hs & Ho & _).
  exists w'. split; [exact E | ]. split.
  - rewrite Hs. reflexivity.
  - unfold moonOrbitAngle. rewrite Ho. reflexivity.
Defined.

(** X11 at the mounted scene. *)
Lemma X11_mounted_tick_either_order :
  refs_ok (mounted (num := float)) /\
  frame 0.016 (mounted (num := float)) =
  (w1 <- MoonOrbit_useFrame 0.016 mounted ;; Planet_useFrame 0.016 w1).
Proof.
  assert (Hok : refs_ok (mounted (num := float))).
  { split; right; reflexivity. }
  split; [exact Hok | exact (frame_order_irrelevant 0.016 Hok)].
Defined.

(** In binary64 the angles do depend on how the time is cut into ticks:
    one tick of 33 ms and two ticks of 16 ms and 17 ms, of the same
    total, leave different spins. *)
Example ticks_matter_binary64 :
  total [0.033] = total [0.016; 0.017] /\
  exists w1 w2 : world float,
    frames [0.033] mounted = Returns w1 /\
    frames [0.016; 0.017] mounted = Returns w2 /\
    planetSpin w1 <> planetSpin w2.
Proof.
  split; [reflexivity | ].
  do 2 eexists. split; [reflexivity | ]. split; [reflexivity | ].
  apply binary64_neq; reflexivity.
Qed.

End FramesBinary64.
